(** * The temperature-to-FHIR Observation mapper

    A shallow embedding of [src/mappers/observation_mapper.py] and the
    properties its specification states about it.

    The mapper is one function, [map_temperature_to_fhir]: it allocates an
    [Observation] model object with [construct()], assigns five attributes
    and returns [observation.json(indent=2)].  The model classes and their
    [json] method belong to the fhir.resources package and the text layout to
    Python's [json] encoder; neither is part of the repository, so both are
    modelled here and the model is kept apart from the mapper itself:

    - [PyFloat]: the runtime's [float.__repr__] and [math.isfinite];
    - [Json]: plain JSON data and the layout of [json.dumps(obj, indent=n)];
    - [Fhir]: model objects as attribute stores, with the lax [construct] /
      assignment the specification describes, and their [dict] and [json];
    - the mapper, statement by statement, over a serializer it calls;
    - the specification's output shape, and then the properties. *)

From Stdlib Require Import ZArith List String Ascii Bool Lia.
From Stdlib Require Import Floats.PrimFloat Floats.FloatOps Floats.SpecFloat.
From Stdlib Require Import Numbers.DecimalString.
Import ListNotations.

Set Warnings "-inexact-float,-register-all".

Open Scope list_scope.
Open Scope string_scope.

(** ** Text helpers *)

(** The double quote, written by its code. *)
Definition dq : string := String "034" EmptyString.

Definition newline : string := String "010" EmptyString.

Fixpoint spaces (n : nat) : string :=
  match n with
  | O => EmptyString
  | S k => String " " (spaces k)
  end.

Fixpoint zeros (n : nat) : string :=
  match n with
  | O => EmptyString
  | S k => String "0" (zeros k)
  end.

(** [sep.join(parts)]. *)
Fixpoint join (sep : string) (parts : list string) : string :=
  match parts with
  | [] => EmptyString
  | [p] => p
  | p :: rest => p ++ sep ++ join sep rest
  end.

Definition digits_of_Z (z : Z) : string :=
  NilZero.string_of_uint (N.to_uint (Z.to_N z)).

Fixpoint rstrip_zeros (s : string) : string :=
  match s with
  | EmptyString => EmptyString
  | String c rest =>
      match rstrip_zeros rest with
      | EmptyString => if Ascii.eqb c "0" then EmptyString else String c EmptyString
      | kept => String c kept
      end
  end.

(** [sub in s]. *)
Definition contains (sub s : string) : bool :=
  match index 0 sub s with
  | Some _ => true
  | None => false
  end.

(** ** Python floats

    A Python [float] is an IEEE 754 binary64 value, which is what Rocq's
    primitive [float] is. *)

Module PyFloat.

Open Scope Z_scope.

(** [math.isfinite]: neither a NaN nor an infinity; the three tests are the
    ones [floatstr] of the JSON encoder makes. *)
Definition isfinite (f : float) : bool :=
  negb (PrimFloat.is_nan f)
  && negb (PrimFloat.eqb f infinity)
  && negb (PrimFloat.eqb f neg_infinity).

(** The rounding interval of [x = m * 2^e], as numerators over the common
    denominator [den]: a decimal strictly inside it, or on its border when
    [m] is even, reads back as [x]. *)
Record interval := { lo : Z; mid : Z; hi : Z; den : Z; closed : bool }.

Definition rounding_interval (m : positive) (e : Z) : interval :=
  let mult := 2 ^ Z.max (e - 2) 0 in
  let boundary := (Z.pos m =? 2 ^ 52) && (-1074 <? e) in
  {| lo := (4 * Z.pos m - (if boundary then 1 else 2)) * mult;
     mid := 4 * Z.pos m * mult;
     hi := (4 * Z.pos m + 2) * mult;
     den := 2 ^ Z.max (2 - e) 0;
     closed := Z.even (Z.pos m) |}.

(** [10^p <= x]. *)
Definition pow10_le (i : interval) (p : Z) : bool :=
  if 0 <=? p then 10 ^ p * den i <=? mid i else den i <=? mid i * 10 ^ (- p).

(** The [p] with [10^p <= x < 10^(p+1)], from an estimate off by at most one. *)
Definition decimal_exponent (m : positive) (e : Z) (i : interval) : Z :=
  let p0 := (Z.log2 (Z.pos m) + e) * 30103 / 100000 in
  if pow10_le i (p0 + 1) then p0 + 1
  else if pow10_le i p0 then p0
  else p0 - 1.

(** [x / 10^k] as a quotient [num / d], with the scaled interval ends. *)
Definition scale (i : interval) (k : Z) : Z * Z * Z * Z :=
  let s := if k <? 0 then 10 ^ (- k) else 1 in
  let d := if k <? 0 then den i else den i * 10 ^ k in
  (lo i * s, mid i * s, hi i * s, d).

Definition round_up (num d : Z) : bool :=
  let fl := num / d in
  let r := num mod d in
  (d <? 2 * r) || ((d =? 2 * r) && Z.odd fl).

(** The decimal [D * 10^k] of [n] digits nearest to [x]. *)
Definition nearest (i : interval) (p n : Z) : Z * Z :=
  let k := p - n + 1 in
  let '(_, num, _, d) := scale i k in
  (if round_up num d then num / d + 1 else num / d, k).

(** The same, when it reads back as [x]: one of the two [n]-digit neighbours
    of [x] lies in the rounding interval. *)
Definition candidate (i : interval) (p n : Z) : option (Z * Z) :=
  let k := p - n + 1 in
  let '(l, num, h, d) := scale i k in
  let inside c :=
    if closed i then (l <=? c * d) && (c * d <=? h)
    else (l <? c * d) && (c * d <? h) in
  let fl := num / d in
  match inside fl, inside (fl + 1) with
  | true, true => Some (if round_up num d then fl + 1 else fl, k)
  | true, false => Some (fl, k)
  | false, true => Some (fl + 1, k)
  | false, false => None
  end.

(** The shortest decimal that reads back as [x], trying [n], [n+1], ...
    digits; seventeen digits always do. *)
Fixpoint shortest (more : nat) (i : interval) (p n : Z) : Z * Z :=
  match more with
  | O => nearest i p n
  | S more' =>
      match candidate i p n with
      | Some r => r
      | None => shortest more' i p (n + 1)
      end
  end.

Definition exponent_digits (z : Z) : string :=
  let a := Z.abs z in
  let sign := if z <? 0 then "-" else "+" in
  let pad := if a <? 10 then "0" else EmptyString in
  (sign ++ pad ++ digits_of_Z a)%string.

(** The layout of the repr format: [ds] are the significant digits and the
    decimal point stands [decpt] places after the first of them. *)
Definition layout (ds : string) (decpt : Z) : string :=
  let len := Z.of_nat (String.length ds) in
  if (decpt <=? -4) || (16 <? decpt) then
    match ds with
    | EmptyString => EmptyString
    | String c rest =>
        (String c (match rest with
                   | EmptyString => EmptyString
                   | _ => "." ++ rest
                   end)
         ++ "e" ++ exponent_digits (decpt - 1))%string
    end
  else if decpt <=? 0 then ("0." ++ zeros (Z.to_nat (- decpt)) ++ ds)%string
  else if len <=? decpt then (ds ++ zeros (Z.to_nat (decpt - len)) ++ ".0")%string
  else (substring 0 (Z.to_nat decpt) ds ++ "."
        ++ substring (Z.to_nat decpt) (Z.to_nat (len - decpt)) ds)%string.

Definition positive_repr (m : positive) (e : Z) : string :=
  let i := rounding_interval m e in
  let p := decimal_exponent m e i in
  let '(D, k) := shortest 16 i p 1 in
  let all := digits_of_Z D in
  layout (rstrip_zeros all) (k + Z.of_nat (String.length all)).

(** [float.__repr__]. *)
Definition float_repr (f : float) : string :=
  match Prim2SF f with
  | S754_zero s => if s then "-0.0" else "0.0"
  | S754_infinity s => if s then "-inf" else "inf"
  | S754_nan => "nan"
  | S754_finite s m e =>
      ((if s then "-" else EmptyString) ++ positive_repr m e)%string
  end.

End PyFloat.

(** ** Python's [json] encoder

    Plain JSON data, as [json.dumps] receives it, and the text
    [json.dumps(obj, indent=n)] lays out: one member or item per line, a level
    of nesting indented by [n] more spaces, [","] after each member but the
    last and [": "] after a key.  Strings are sequences of characters with
    codes below 256. *)

Module Json.

Inductive data : Type :=
| JString (s : string)
| JNumber (f : float)
| JArray (items : list data)
| JObject (members : list (string * data)).

Definition hex_digit (n : nat) : ascii :=
  nth n ["0"; "1"; "2"; "3"; "4"; "5"; "6"; "7"; "8"; "9";
         "a"; "b"; "c"; "d"; "e"; "f"]%char "0"%char.

Definition backslash : ascii := "092".

(** [ESCAPE_DCT], and [\u00xx] for every other character outside the
    printable ASCII range (the default [ensure_ascii=True]). *)
Definition escape_char (c : ascii) : string :=
  let n := nat_of_ascii c in
  if Ascii.eqb c "034" then String backslash dq
  else if Ascii.eqb c backslash then String backslash (String backslash EmptyString)
  else if Ascii.eqb c "008" then String backslash "b"
  else if Ascii.eqb c "012" then String backslash "f"
  else if Ascii.eqb c "010" then String backslash "n"
  else if Ascii.eqb c "013" then String backslash "r"
  else if Ascii.eqb c "009" then String backslash "t"
  else if (n <? 32)%nat || (126 <? n)%nat then
    String backslash
      (String "u" (String "0" (String "0"
        (String (hex_digit (n / 16)) (String (hex_digit (n mod 16)) EmptyString)))))
  else String c EmptyString.

Fixpoint escape (s : string) : string :=
  match s with
  | EmptyString => EmptyString
  | String c rest => escape_char c ++ escape rest
  end.

(** [encode_basestring_ascii]. *)
Definition encode_basestring_ascii (s : string) : string :=
  dq ++ escape s ++ dq.



(** [floatstr], with the default [allow_nan=True]. *)
Definition floatstr (o : float) : string :=
  if PrimFloat.is_nan o then "NaN"
  else if PrimFloat.eqb o infinity then "Infinity"
  else if PrimFloat.eqb o neg_infinity then "-Infinity"
  else PyFloat.float_repr o.

Arguments floatstr : simpl never.

Definition newline_indent (indent level : nat) : string :=
  newline ++ spaces (indent * level).

(** [_iterencode], at nesting depth [level]. *)
Fixpoint encode (indent level : nat) (o : data) : string :=
  match o with
  | JString s => encode_basestring_ascii s
  | JNumber f => floatstr f
  | JArray [] => "[]"
  | JArray items =>
      "[" ++ newline_indent indent (S level)
      ++ join ("," ++ newline_indent indent (S level))
              (map (encode indent (S level)) items)
      ++ newline_indent indent level ++ "]"
  | JObject [] => "{}"
  | JObject members =>
      "{" ++ newline_indent indent (S level)
      ++ join ("," ++ newline_indent indent (S level))
              (map (fun kv => encode_basestring_ascii (fst kv) ++ ": "
                              ++ encode indent (S level) (snd kv))
                   members)
      ++ newline_indent indent level ++ "}"
  end.

(** Modelled from the spec: the pretty-printed text with stable key order;
    the layout is that of [json.dumps(obj, indent=indent)]. *)
Definition dumps (obj : data) (indent : nat) : string :=
  encode indent 0 obj.

(** Reading a document: [obj[key]], [arr[n]] and a path of both. *)
Fixpoint lookup (key : string) (members : list (string * data)) : option data :=
  match members with
  | [] => None
  | (k, v) :: rest => if String.eqb k key then Some v else lookup key rest
  end.

Inductive step : Type :=
| Key (k : string)
| Index (n : nat).

Definition get (st : step) (o : data) : option data :=
  match st, o with
  | Key k, JObject members => lookup k members
  | Index n, JArray items => nth_error items n
  | _, _ => None
  end.

Fixpoint at_path (path : list step) (o : data) : option data :=
  match path with
  | [] => Some o
  | st :: rest =>
      match get st o with
      | Some inner => at_path rest inner
      | None => None
      end
  end.


End Json.

(** ** Outcomes of a call

    A call returns a value or raises.  The specification names two kinds of
    error; each carries the message of the exception. *)

Inductive exn : Type :=
| InvalidInput (message : string)
| SerializationError (message : string).

Inductive outcome (A : Type) : Type :=
| Returned (a : A)
| Raised (e : exn).

Arguments Returned {A} a.
Arguments Raised {A} e.

(** ** The fhir.resources models

    The structure-construction facility is a third-party package, not part
    of the repository.  The specification describes it as performing lax,
    partial construction and as the place where the text is produced, and it
    is modelled that way: a model object is its class and the attributes set
    on it, in the order they were first set. *)

Module Fhir.

Import Json.

Inductive fhir_class : Type :=
| Observation
| CodeableConcept.

Definition resource_type (c : fhir_class) : string :=
  match c with
  | Observation => "Observation"
  | CodeableConcept => "CodeableConcept"
  end.

Definition is_resource (c : fhir_class) : bool :=
  match c with
  | Observation => true
  | CodeableConcept => false
  end.

(** The Python values the mapper handles. *)
Inductive value : Type :=
| PyStr (s : string)
| PyFloat (f : float)
| PyList (items : list value)
| PyDict (entries : list (string * value))
| PyModel (cls : fhir_class) (attrs : list (string * value)).

Record model : Type := { cls : fhir_class; attrs : list (string * value) }.

Definition as_value (m : model) : value := PyModel (cls m) (attrs m).

(** Modelled from the spec: [Class.construct(name=value, ...)] of the
    facility, lax construction: the attributes are stored as given, nothing
    is validated and nothing fails. *)
Definition construct (c : fhir_class) (kwargs : list (string * value)) : model :=
  {| cls := c; attrs := kwargs |}.

Fixpoint store (name : string) (v : value) (fields : list (string * value))
  : list (string * value) :=
  match fields with
  | [] => [(name, v)]
  | (k, old) :: rest =>
      if String.eqb k name then (k, v) :: rest
      else (k, old) :: store name v rest
  end.

(** Modelled from the spec: the assignment [obj.name = v] on a model of the
    facility, as lax as [construct]: it stores or replaces one attribute. *)
Definition setattr (obj : model) (name : string) (v : value) : model :=
  {| cls := cls obj; attrs := store name v (attrs obj) |}.


(** Modelled from the spec: what the facility's serialization adds to the
    attributes.  The specification's shape has no such member; FHIR's JSON
    format gives every resource (not a data type such as CodeableConcept) a
    resourceType member, the name of its class, and the facility writes it
    first. *)
Definition header (c : fhir_class) : list (string * data) :=
  if is_resource c then [("resourceType", JString (resource_type c))] else [].

Fixpoint plain (v : value) : data :=
  match v with
  | PyStr s => JString s
  | PyFloat f => JNumber f
  | PyList items => JArray (map plain items)
  | PyDict entries => JObject (map (fun kv => (fst kv, plain (snd kv))) entries)
  | PyModel c fields =>
      JObject (header c ++ map (fun kv => (fst kv, plain (snd kv))) fields)
  end.

(** Modelled from the spec: [obj.dict()] of the facility, the object as
    plain data. *)
Definition dict (obj : model) : data := plain (as_value obj).

(** Modelled from the spec: [obj.json(indent=indent)] of the facility, its
    serialize operation: the plain data laid out by Python's encoder. *)
Definition json (obj : model) (indent : nat) : outcome string :=
  Returned (dumps (dict obj) indent).

Fixpoint all_finite (o : data) : bool :=
  match o with
  | JString _ => true
  | JNumber f => PyFloat.isfinite f
  | JArray items => forallb all_finite items
  | JObject members => forallb (fun kv => all_finite (snd kv)) members
  end.

(** A stricter serializer, whose encoder runs with [allow_nan=False]: it
    refuses a number that is not finite.  It stands for a facility that
    rejects a record. *)
Definition json_strict (obj : model) (indent : nat) : outcome string :=
  if all_finite (dict obj) then Returned (dumps (dict obj) indent)
  else Raised (SerializationError
                 "Out of range float values are not JSON compliant").

End Fhir.

(** ** The mapper *)

Import Json Fhir.

(** Lines 9 to 30 of the source: the object bound to [observation] when the
    function reaches its [return]. *)
Definition observation (patient_id : string) (temp_value : float) : model :=
  let observation := construct Observation [] in
  let observation := setattr observation "status" (PyStr "final") in
  let observation :=
    setattr observation "category"
      (PyList [as_value (construct CodeableConcept [("coding", PyList [PyDict [
         ("system", PyStr "http://terminology.hl7.org/CodeSystem/observation-category");
         ("code", PyStr "vital-signs");
         ("display", PyStr "Vital Signs")]])])]) in
  let observation :=
    setattr observation "code"
      (as_value (construct CodeableConcept [("coding", PyList [PyDict [
         ("system", PyStr "http://loinc.org");
         ("code", PyStr "8310-5");
         ("display", PyStr "Body temperature")]])])) in
  let observation :=
    setattr observation "subject"
      (PyDict [("reference", PyStr ("Patient/" ++ patient_id))]) in
  let observation :=
    setattr observation "valueQuantity"
      (PyDict [("value", PyFloat temp_value);
               ("unit", PyStr "C");
               ("system", PyStr "http://unitsofmeasure.org");
               ("code", PyStr "Cel")]) in
  observation.

Section Mapper.

(** The facility's [json] method, which the mapper calls on the object. *)
Variable serialize : model -> nat -> outcome string.

(** Line 32: [return observation.json(indent=2)].  The function has no
    [try] and no [raise]: what the call raises reaches the caller. *)
Definition map_temperature_to_fhir (patient_id : string) (temp_value : float)
  : outcome string :=
  serialize (observation patient_id temp_value) 2.

End Mapper.

(** The document the returned text lays out. *)
Definition document (patient_id : string) (temp_value : float) : data :=
  dict (observation patient_id temp_value).

(** ** The specification's terms *)

(** A valid input: an identifier that is not empty and a finite number. *)
Definition valid_input (patient_id : string) (temperature_value : float) : Prop :=
  patient_id <> EmptyString /\ PyFloat.isfinite temperature_value = true.

Definition coded_term (system code display : string) : data :=
  JObject [("system", JString system);
           ("code", JString code);
           ("display", JString display)].

Definition vital_signs : data :=
  coded_term "http://terminology.hl7.org/CodeSystem/observation-category"
             "vital-signs" "Vital Signs".

Definition body_temperature : data :=
  coded_term "http://loinc.org" "8310-5" "Body temperature".

(** The output shape of section 6 of the specification, member by member. *)
Definition spec_shape (patient_id : string) (temperature_value : float)
  : list (string * data) :=
  [("status", JString "final");
   ("category", JArray [JObject [("coding", JArray [vital_signs])]]);
   ("code", JObject [("coding", JArray [body_temperature])]);
   ("subject", JObject [("reference", JString ("Patient/" ++ patient_id))]);
   ("valueQuantity",
     JObject [("value", JNumber temperature_value);
              ("unit", JString "C");
              ("system", JString "http://unitsofmeasure.org");
              ("code", JString "Cel")])].

(** The same shape as pretty-printed text, two spaces a level, around the
    escaped identifier and the number as written. *)
Definition quoted (s : string) : string := dq ++ s ++ dq.





(** ** Reading a text

    What a reader of the returned text relies on: where a string literal
    ends, which characters the text is made of, which part of the document a
    path reaches. *)







Definition step_eqb (a b : step) : bool :=
  match a, b with
  | Key k, Key k' => String.eqb k k'
  | Index n, Index n' => Nat.eqb n n'
  | _, _ => false
  end.

(** [path] is on the way to [target]: the value at [path] holds the value at
    [target]. *)
Fixpoint leads_to (path target : list step) : bool :=
  match path, target with
  | [], _ => true
  | _ :: _, [] => false
  | a :: path', b :: target' => step_eqb a b && leads_to path' target'
  end.

(** * Properties *)


(** Decides the comparison of a member's name with the key looked up. *)
Ltac by_key k :=
  repeat match goal with
  | |- context [String.eqb ?name k] =>
      let E := fresh "E" in
      destruct (String.eqb name k) eqn:E;
      [apply String.eqb_eq in E; subst k; try reflexivity|]
  end.

(** ** Text lemmas *)







(** ** The document and its text *)


Lemma document_members (p : string) (t : float) :
  document p t = JObject (("resourceType", JString "Observation") :: spec_shape p t).
Proof. reflexivity. Qed.


(** ** The scenarios of the specification *)

Example scenario_1 :
  exists text,
    map_temperature_to_fhir Fhir.json "123" 36.5 = Returned text
    /\ contains (quoted "reference" ++ ": " ++ quoted "Patient/123") text = true
    /\ contains (quoted "value" ++ ": 36.5") text = true.
Proof. eexists. split; [reflexivity|]. split; vm_compute; reflexivity. Qed.

Example scenario_2 :
  exists text,
    map_temperature_to_fhir Fhir.json "abc-789" 39.2 = Returned text
    /\ contains (quoted "category" ++ ": "
                 ++ encode 2 1 (JArray [JObject [("coding", JArray [vital_signs])]]))
                text = true
    /\ contains (quoted "code" ++ ": "
                 ++ encode 2 1 (JObject [("coding", JArray [body_temperature])]))
                text = true
    /\ contains (quoted "value" ++ ": 39.2") text = true.
Proof. eexists. split; [reflexivity|]. repeat split; vm_compute; reflexivity. Qed.

(** A facility that refuses a record makes the call fail with its error. *)
Example strict_facility_refuses_nan :
  map_temperature_to_fhir Fhir.json_strict "123" nan
  = Raised (SerializationError "Out of range float values are not JSON compliant").
Proof. reflexivity. Qed.

Example strict_facility_accepts_finite :
  map_temperature_to_fhir Fhir.json_strict "123" 36.5
  = map_temperature_to_fhir Fhir.json "123" 36.5.
Proof. reflexivity. Qed.

(** ** The claims *)








(** C4. For every valid input the output's status is "final",
    category[0].coding[0] is the vital-signs coded term and code.coding[0]
    is the LOINC 8310-5 body temperature coded term, whatever the input
    values. *)
Theorem field_fixity (patient_id : string) (temperature_value : float) :
  valid_input patient_id temperature_value ->
  map_temperature_to_fhir Fhir.json patient_id temperature_value
  = Returned (dumps (document patient_id temperature_value) 2)
  /\ at_path [Key "status"] (document patient_id temperature_value)
     = Some (JString "final")
  /\ at_path [Key "category"; Index 0; Key "coding"; Index 0]
             (document patient_id temperature_value)
     = Some (JObject
               [("system",
                  JString "http://terminology.hl7.org/CodeSystem/observation-category");
                ("code", JString "vital-signs");
                ("display", JString "Vital Signs")])
  /\ at_path [Key "code"; Key "coding"; Index 0]
             (document patient_id temperature_value)
     = Some (JObject
               [("system", JString "http://loinc.org");
                ("code", JString "8310-5");
                ("display", JString "Body temperature")]).
Proof. intros _. repeat split. Qed.

Lemma field_fixity_witness :
  valid_input "abc-789" 39.2
  /\ at_path [Key "status"] (document "abc-789" 39.2) = Some (JString "final").
Proof.
  assert (Hvalid : valid_input "abc-789" 39.2) by (split; [discriminate|reflexivity]).
  split; [exact Hvalid|].
  exact (proj1 (proj2 (field_fixity "abc-789" 39.2 Hvalid))).
Defined.

(** C5. For every valid input the output's valueQuantity has unit "C",
    system "http://unitsofmeasure.org" and code "Cel". *)
Theorem unit_fixity (patient_id : string) (temperature_value : float) :
  valid_input patient_id temperature_value ->
  map_temperature_to_fhir Fhir.json patient_id temperature_value
  = Returned (dumps (document patient_id temperature_value) 2)
  /\ at_path [Key "valueQuantity"; Key "unit"]
             (document patient_id temperature_value)
     = Some (JString "C")
  /\ at_path [Key "valueQuantity"; Key "system"]
             (document patient_id temperature_value)
     = Some (JString "http://unitsofmeasure.org")
  /\ at_path [Key "valueQuantity"; Key "code"]
             (document patient_id temperature_value)
     = Some (JString "Cel").
Proof. intros _. repeat split. Qed.

Lemma unit_fixity_witness :
  valid_input "123" 36.5
  /\ at_path [Key "valueQuantity"; Key "unit"] (document "123" 36.5)
     = Some (JString "C").
Proof.
  assert (Hvalid : valid_input "123" 36.5) by (split; [discriminate|reflexivity]).
  split; [exact Hvalid|].
  exact (proj1 (proj2 (unit_fixity "123" 36.5 Hvalid))).
Defined.








(** * Further properties of the mapper *)

(** ** Lemmas on texts *)







(** ** The identifier in the text *)



(** ** What each input reaches in the document *)

Lemma at_path_string (path : list step) (s1 s2 : string) :
  path <> [] -> at_path path (JString s1) = at_path path (JString s2).
Proof. destruct path as [|[k|n] rest]; [congruence|reflexivity|reflexivity]. Qed.


(** X2. The patient_id reaches the document at subject.reference only: at
    every path that is not on the way to that field, two calls that differ
    in the patient_id alone give the same value, or both none. *)
Theorem patient_id_confined (p1 p2 : string) (t : float) (path : list step) :
  leads_to path [Key "subject"; Key "reference"] = false ->
  at_path path (document p1 t) = at_path path (document p2 t).
Proof.
  intros H. rewrite !document_members. unfold spec_shape.
  destruct path as [|[k|n] rest]; [discriminate| |reflexivity].
  cbn [at_path get lookup]. by_key k; [|reflexivity].
  cbn [leads_to step_eqb] in H. rewrite String.eqb_refl in H. cbn [andb] in H.
  destruct rest as [|[k|n] rest]; [discriminate| |reflexivity].
  cbn [at_path get lookup]. by_key k; [|reflexivity].
  cbn [leads_to step_eqb] in H. rewrite String.eqb_refl in H. cbn [andb] in H.
  apply at_path_string. destruct rest; [discriminate|congruence].
Qed.

Lemma patient_id_confined_witness :
  leads_to [Key "valueQuantity"] [Key "subject"; Key "reference"] = false
  /\ at_path [Key "valueQuantity"] (document "123" 36.5)
     = at_path [Key "valueQuantity"] (document "abc-789" 36.5).
Proof.
  assert (Hoff : leads_to [Key "valueQuantity"] [Key "subject"; Key "reference"]
                 = false) by reflexivity.
  split; [exact Hoff|].
  exact (patient_id_confined "123" "abc-789" 36.5 [Key "valueQuantity"] Hoff).
Defined.



(** ** The characters of the output *)



















(** X6. Two calls that build the same document were given the same
    patient_id and the same temp_value: the record keeps both inputs
    whole. *)
Theorem document_determines_inputs (p1 p2 : string) (t1 t2 : float) :
  document p1 t1 = document p2 t2 -> p1 = p2 /\ t1 = t2.
Proof.
  rewrite !document_members. unfold spec_shape. intros H.
  injection H as Hid Ht. now split.
Qed.

Lemma document_determines_inputs_witness :
  document "123" 36.5 = document "123" 36.5
  /\ "123" = "123"
  /\ 36.5%float = 36.5%float.
Proof.
  assert (Hsame : document "123" 36.5 = document "123" 36.5) by reflexivity.
  split; [exact Hsame|].
  exact (document_determines_inputs "123" "123" 36.5 36.5 Hsame).
Defined.
